(** * Diabetes prediction pipeline (joji.py): a shallow embedding

    The script is a single top-to-bottom Streamlit program.  Its own
    code is glue around pandas, scikit-learn, joblib and Streamlit, so
    the embedding keeps the script's statements and their order, models
    floating-point numbers by rationals ([Q]) and takes what the
    libraries compute (model fitting, the random permutation behind the
    split, cross-validation scores, square roots, the state of the
    widgets) as the operations of two interfaces, [Sklearn] and
    [Streamlit]. *)

From Stdlib Require Import List String ZArith QArith Bool Arith Lia.
From Stdlib Require Import Permutation Sorted Lqa.
Import ListNotations.

Local Open Scope string_scope.
Local Open Scope list_scope.

Set Implicit Arguments.

(* ================================================================== *)
(** ** Small list and dictionary utilities *)

(** A Python [dict] iterates in insertion order, and the script depends
    on that order (line 98), so dictionaries are association lists. *)
Definition dict (V : Type) := list (string * V).

Fixpoint dict_get {V} (d : dict V) (k : string) : option V :=
  match d with
  | [] => None
  | (k', v) :: d' => if String.eqb k' k then Some v else dict_get d' k
  end.

(** [d[k] = v]: overwrite in place when the key exists, append otherwise. *)
Fixpoint dict_set {V} (d : dict V) (k : string) (v : V) : dict V :=
  match d with
  | [] => [(k, v)]
  | (k', v') :: d' =>
      if String.eqb k' k then (k', v) :: d' else (k', v') :: dict_set d' k v
  end.

Definition keys {V} (d : dict V) : list string := map fst d.

Definition mem_str (k : string) (l : list string) : bool :=
  existsb (String.eqb k) l.

(* ================================================================== *)
(** ** Step 1: load_data (lines 19-37) *)

Module DataPrep.

(** A cell of a numeric column; [None] is NaN. *)
Definition Cell := option Q.
Definition Series := list Cell.
(** A DataFrame is a dictionary of named columns. *)
Definition DataFrame := dict Series.

Definition col_names : list string :=
  ["Pregnancies"; "Glucose"; "BloodPressure"; "SkinThickness"; "Insulin";
   "BMI"; "DiabetesPedigreeFunction"; "Age"; "Outcome"].

Definition cols_with_zeros : list string :=
  ["Glucose"; "BloodPressure"; "SkinThickness"; "Insulin"; "BMI"].

(** [Series.replace(0, np.nan)] *)
Definition replace_zero_cell (c : Cell) : Cell :=
  match c with
  | Some v => if Qeq_bool v 0 then None else Some v
  | None => None
  end.

Definition replace_zero (s : Series) : Series := map replace_zero_cell s.

(** [df[cols] = df[cols].replace(0, np.nan)] *)
Definition replace_in (cols : list string) (df : DataFrame) : DataFrame :=
  map (fun '(n, s) => if mem_str n cols then (n, replace_zero s) else (n, s)) df.

Fixpoint dropna (s : Series) : list Q :=
  match s with
  | [] => []
  | Some v :: s' => v :: dropna s'
  | None :: s' => dropna s'
  end.

Fixpoint insert_sorted (x : Q) (l : list Q) : list Q :=
  match l with
  | [] => [x]
  | y :: l' => if Qle_bool x y then x :: l else y :: insert_sorted x l'
  end.

Definition sort (l : list Q) : list Q := fold_right insert_sorted [] l.

(** The middle value of the sorted numbers, or the mean of the two
    middle values; NaN when there is no number. *)
Definition median_of (l : list Q) : Cell :=
  let vs := sort l in
  let n := List.length vs in
  match n with
  | O => None
  | _ =>
      if Nat.odd n then Some (nth (n / 2)%nat vs 0)
      else Some ((nth (n / 2 - 1)%nat vs 0 + nth (n / 2)%nat vs 0) / 2)
  end.

(** [Series.median()]: NaN are skipped. *)
Definition median (s : Series) : Cell := median_of (dropna s).

(** [df.median()]: one value per column. *)
Definition df_median (df : DataFrame) : dict Cell :=
  map (fun '(n, s) => (n, median s)) df.

Definition fill_cell (m : Q) (c : Cell) : Cell :=
  match c with
  | Some v => Some v
  | None => Some m
  end.

(** A column whose NaN are filled with [m], when [m] is a number. *)
Definition fill_with (m : option Cell) (s : Series) : Series :=
  match m with
  | Some (Some v) => map (fill_cell v) s
  | _ => s
  end.

(** [df.fillna(values)]: in each column, NaN become the column's entry
    of [values]; a column whose entry is NaN (or absent) is left alone. *)
Definition fillna (df : DataFrame) (values : dict Cell) : DataFrame :=
  map (fun '(n, s) =>
         match dict_get values n with
         | Some (Some m) => (n, map (fill_cell m) s)
         | _ => (n, s)
         end) df.

(** Lines 30-37: what [load_data] does to the table it has read. *)
Definition clean (df : DataFrame) : DataFrame :=
  let df1 := replace_in cols_with_zeros df in
  fillna df1 (df_median df1).

(** A value is missing after line 32 when it was NaN or equal to 0. *)
Definition zero_or_missing (c : Cell) : bool :=
  match c with
  | Some v => Qeq_bool v 0
  | None => true
  end.

End DataPrep.

(* ================================================================== *)
(** ** Arrays of floats, as scikit-learn sees them *)

(** A 2-d array is a list of rows; an entry is a [Cell] (NaN is [None]). *)
Definition Matrix := list (list DataPrep.Cell).

Module Frame.
Import DataPrep.

Definition nrows (df : DataFrame) : nat :=
  match df with
  | [] => O
  | (_, s) :: _ => List.length s
  end.

Definition row_at (df : DataFrame) (i : nat) : list Cell :=
  map (fun '(_, s) => nth i s None) df.

(** Every column has [n] entries. *)
Definition rectangular (n : nat) (df : DataFrame) : Prop :=
  Forall (fun kv => List.length (snd kv) = n) df.

(** [df.values]: the rows of the table. *)
Definition to_rows (df : DataFrame) : Matrix :=
  map (row_at df) (seq 0 (nrows df)).

(** [df.drop(columns=[c])]: [None] is the [KeyError] of a missing label. *)
Definition drop_column (df : DataFrame) (c : string) : option DataFrame :=
  match dict_get df c with
  | None => None
  | Some _ => Some (filter (fun '(n, _) => negb (String.eqb n c)) df)
  end.

End Frame.

(* ================================================================== *)
(** ** StandardScaler (lines 67-68 and 166) *)

Module Scaler.
Import DataPrep.

(** The fitted attributes [mean_] and [scale_], one entry per feature. *)
Record ScalerState := mkScaler {
  mean_ : list Cell;
  scale_ : list Cell
}.

Definition qsum (l : list Q) : Q := fold_right Qplus 0 l.

Definition qlen (l : list Q) : Q := inject_Z (Z.of_nat (List.length l)).

(** NaN are disregarded in [fit]; a column without numbers has NaN statistics. *)
Definition mean (s : Series) : Cell :=
  match dropna s with
  | [] => None
  | vs => Some (qsum vs / qlen vs)
  end.

(** Population variance (ddof = 0). *)
Definition variance (s : Series) : Cell :=
  match mean s with
  | None => None
  | Some m =>
      let vs := dropna s in
      Some (qsum (map (fun v => (v - m) * (v - m)) vs) / qlen vs)
  end.

(** A constant feature is scaled by 1, not by 0. *)
Definition handle_zeros (sd : Q) : Q := if Qeq_bool sd 0 then 1 else sd.

Definition n_features (X : Matrix) : nat :=
  match X with
  | [] => O
  | r :: _ => List.length r
  end.

Definition column (X : Matrix) (j : nat) : Series :=
  map (fun r => nth j r None) X.

Section WithSqrt.

(** [np.sqrt] on floats. *)
Variable np_sqrt : Q -> Q.

Definition std (s : Series) : Cell :=
  option_map (fun v => handle_zeros (np_sqrt v)) (variance s).

(** [scaler.fit(X)] *)
Definition fit (X : Matrix) : ScalerState :=
  let cols := map (column X) (seq 0 (n_features X)) in
  {| mean_ := map mean cols; scale_ := map std cols |}.

End WithSqrt.

(** [(x - mean) / std]; NaN stays NaN. *)
Definition scale_cell (x m sd : Cell) : Cell :=
  match x, m, sd with
  | Some x, Some m, Some sd => Some ((x - m) / sd)
  | _, _, _ => None
  end.

Fixpoint scale_row (r : list Cell) (ms sds : list Cell) : list Cell :=
  match r, ms, sds with
  | x :: r', m :: ms', sd :: sds' => scale_cell x m sd :: scale_row r' ms' sds'
  | _, _, _ => []
  end.

(** [scaler.transform(X)]: [None] is the [ValueError] raised when a row
    does not have as many features as the scaler was fitted with. *)
Definition transform (st : ScalerState) (X : Matrix) : option Matrix :=
  if forallb (fun r => Nat.eqb (List.length r) (List.length (mean_ st))) X
  then Some (map (fun r => scale_row r (mean_ st) (scale_ st)) X)
  else None.



End Scaler.

(* ================================================================== *)
(** ** train_test_split (line 71) *)

Module Split.

(** [ceil(0.2 * n)]: the double nearest to 0.2 exceeds 1/5 by a relative
    2^-54, less than half an ulp of the product, so for every [n] that a
    double holds exactly the float computation gives this integer. *)
Definition n_test (n : nat) : nat := (n + 4) / 5.

Definition n_train (n : nat) : nat := n - n_test n.

Definition take_rows {A} (rows : list A) (d : A) (idx : list nat) : list A :=
  map (fun i => nth i rows d) idx.

Section WithRng.

(** [np.random.RandomState(seed).permutation(n)] *)
Variable permutation : Z -> nat -> list nat.

(** [ShuffleSplit]: the test indices are the head of the permutation,
    the train indices follow. *)
Definition test_indices (seed : Z) (n : nat) : list nat :=
  firstn (n_test n) (permutation seed n).

Definition train_indices (seed : Z) (n : nat) : list nat :=
  firstn (n_train n) (skipn (n_test n) (permutation seed n)).

Record SplitResult (A B : Type) := mkSplit {
  X_train : list A;
  X_test : list A;
  y_train : list B;
  y_test : list B
}.

(** [train_test_split(X, y, test_size=0.2, random_state=seed)]: [None]
    is the [ValueError] for arrays of different lengths or for an empty
    train set. *)
Definition train_test_split {A B} (dA : A) (dB : B)
    (X : list A) (y : list B) (seed : Z) : option (SplitResult A B) :=
  let n := List.length X in
  if negb (Nat.eqb (List.length y) n) then None
  else if Nat.eqb (n_train n) 0 then None
  else
    let tr := train_indices seed n in
    let te := test_indices seed n in
    Some {| X_train := take_rows X dA tr; X_test := take_rows X dA te;
            y_train := take_rows y dB tr; y_test := take_rows y dB te |}.

End WithRng.

End Split.

(* ================================================================== *)
(** ** Metrics (lines 90-93) *)

Module Metrics.
Import DataPrep.

(** The positive class is the label 1. *)
Definition is_pos (c : Cell) : bool :=
  match c with
  | Some v => Qeq_bool v 1
  | None => false
  end.

Definition cell_eqb (a b : Cell) : bool :=
  match a, b with
  | Some x, Some y => Qeq_bool x y
  | _, _ => false
  end.

Definition count {A} (p : A -> bool) (l : list A) : Q :=
  inject_Z (Z.of_nat (List.length (filter p l))).

Section Scores.
Variables y_true y_pred : list Cell.

Let pairs := combine y_true y_pred.

Definition tp : Q := count (fun '(t, p) => is_pos t && is_pos p) pairs.
Definition fp : Q := count (fun '(t, p) => negb (is_pos t) && is_pos p) pairs.
Definition fn : Q := count (fun '(t, p) => is_pos t && negb (is_pos p)) pairs.

(** Division by zero yields 0 in [Q], which is what the scores report
    (with a warning) when a denominator is empty. *)
Definition accuracy_score : Q :=
  count (fun '(t, p) => cell_eqb t p) pairs / count (fun _ => true) pairs.
Definition precision_score : Q := tp / (tp + fp).
Definition recall_score : Q := tp / (tp + fn).
Definition f1_score : Q := (2 * tp) / (2 * tp + fp + fn).

End Scores.

(** The per-model dictionary of line 95. *)
Record Scores := mkScores {
  Accuracy : Q;
  Precision : Q;
  Recall : Q;
  F1_Score : Q
}.

End Metrics.

(* ================================================================== *)
(** ** Estimators and the Model Bank (lines 74-80) *)

Module Models.

(** A constructor argument or a grid value. *)
#[warnings="-register-all"] Inductive Param :=
| PNone
| PInt (z : Z)
| PFloat (q : Q)
| PStr (s : string)
| PBool (b : bool)
| PEstimator (cls : string) (args : list (string * Param)).

(** An unfitted estimator: its class and the arguments that were set. *)
Record Estimator := mkEstimator {
  cls : string;
  params : dict Param
}.

Definition models : dict Estimator :=
  [ ("Logistic Regression", mkEstimator "LogisticRegression" []);
    ("Decision Tree", mkEstimator "DecisionTreeClassifier" []);
    ("Random Forest",
       mkEstimator "RandomForestClassifier" [("n_estimators", PInt 100)]);
    ("SVM", mkEstimator "SVC" [("kernel", PStr "linear"); ("probability", PBool true)]);
    ("AdaBoost",
       mkEstimator "AdaBoostClassifier"
         [("estimator", PEstimator "DecisionTreeClassifier" [("max_depth", PInt 1)]);
          ("n_estimators", PInt 50)]) ].

(** [estimator.set_params] with the entries of [c] as keyword arguments. *)
Definition set_params (e : Estimator) (c : dict Param) : Estimator :=
  fold_left (fun e' '(k, v) => mkEstimator (cls e') (dict_set (params e') k v)) c e.

End Models.

(** What the script takes from numpy and scikit-learn. *)
Class Sklearn := {
  Fitted : Type;
  np_sqrt : Q -> Q;
  rng_permutation : Z -> nat -> list nat;
  rng_permutation_perm :
    forall seed n, Permutation (rng_permutation seed n) (seq 0 n);
  (** [clone(e).fit(X, y)]; an estimator that draws random numbers
      while fitting is taken with the numbers of the run at hand. *)
  fit : Models.Estimator -> Matrix -> list DataPrep.Cell -> Fitted;
  (** [m.predict(X)] *)
  predict : Fitted -> Matrix -> list DataPrep.Cell;
  (** The score, under the named scoring, of an estimator on one fold
      out of [cv] folds of [(X, y)]. *)
  cv_score :
    string -> nat -> Models.Estimator -> Matrix -> list DataPrep.Cell -> nat -> Q
}.

(* ================================================================== *)
(** ** Training loop and best-model selection (lines 84-99) *)

Module Select.
Import DataPrep Metrics Models.

Section WithSklearn.
Context {SK : Sklearn}.

Variables (Xtr : Matrix) (ytr : list Cell) (Xte : Matrix) (yte : list Cell).

(** One iteration of the loop at lines 85-95. *)
Definition evaluate (model : Estimator) : Scores :=
  let fitted := fit model Xtr ytr in
  let y_pred := predict fitted Xte in
  {| Accuracy := accuracy_score yte y_pred;
     Precision := precision_score yte y_pred;
     Recall := recall_score yte y_pred;
     F1_Score := f1_score yte y_pred |}.

Definition train_and_evaluate (ms : dict Estimator) : dict Scores :=
  fold_left (fun results '(name, model) => dict_set results name (evaluate model))
            ms [].

End WithSklearn.

(** The builtin [max(iterable, key=...)]: the running best is replaced
    only by a strictly greater key; [None] is the [ValueError] raised on
    an empty iterable. *)
Fixpoint max_loop {A} (key : A -> Q) (best : A) (l : list A) : A :=
  match l with
  | [] => best
  | x :: l' =>
      if negb (Qle_bool (key x) (key best)) then max_loop key x l'
      else max_loop key best l'
  end.

Definition py_max {A} (key : A -> Q) (l : list A) : option A :=
  match l with
  | [] => None
  | x :: l' => Some (max_loop key x l')
  end.

(** [results[x]["F1-Score"]]; the lookup cannot fail on a key of [results]. *)
Definition f1_of (results : dict Scores) (x : string) : Q :=
  match dict_get results x with
  | Some m => F1_Score m
  | None => 0
  end.

(** Line 98. *)
Definition best_model_name (results : dict Scores) : option string :=
  py_max (f1_of results) (keys results).

End Select.

(* ================================================================== *)
(** ** Hyperparameter tuning (lines 110-136) *)

Module Tune.
Import DataPrep Models.

Definition Grid := dict (list Param).

(** The [if]/[elif] chain of lines 112-128; [None] means that no branch
    was taken and [param_grid] is still unbound. *)
Definition param_grid (best_model_name : string) : option Grid :=
  if String.eqb best_model_name "Random Forest" then
    Some [("n_estimators", [PInt 50; PInt 100; PInt 200]);
          ("max_depth", [PNone; PInt 10; PInt 20]);
          ("min_samples_split", [PInt 2; PInt 5; PInt 10])]
  else if String.eqb best_model_name "Decision Tree" then
    Some [("max_depth", [PNone; PInt 10; PInt 20]);
          ("min_samples_split", [PInt 2; PInt 5; PInt 10])]
  else if String.eqb best_model_name "SVM" then
    Some [("C", [PFloat (1 # 10); PInt 1; PInt 10]);
          ("kernel", [PStr "linear"; PStr "rbf"])]
  else if String.eqb best_model_name "Logistic Regression" then
    Some [("C", [PFloat (1 # 10); PInt 1; PInt 10])]
  else if String.eqb best_model_name "AdaBoost" then
    Some [("n_estimators", [PInt 50; PInt 100; PInt 200]);
          ("learning_rate", [PFloat (1 # 10); PFloat (1 # 2); PFloat 1])]
  else None.

(** The table of grids as the specification prints it, one row per
    model name: tree count and rounds are [n_estimators], max depth is
    [max_depth] with "unlimited" for [None], min split is
    [min_samples_split]. *)
Definition spec_grid_table : dict Grid :=
  [ ("Random Forest",
       [("n_estimators", [PInt 50; PInt 100; PInt 200]);
        ("max_depth", [PNone; PInt 10; PInt 20]);
        ("min_samples_split", [PInt 2; PInt 5; PInt 10])]);
    ("Decision Tree",
       [("max_depth", [PNone; PInt 10; PInt 20]);
        ("min_samples_split", [PInt 2; PInt 5; PInt 10])]);
    ("SVM",
       [("C", [PFloat (1 # 10); PInt 1; PInt 10]);
        ("kernel", [PStr "linear"; PStr "rbf"])]);
    ("Logistic Regression",
       [("C", [PFloat (1 # 10); PInt 1; PInt 10])]);
    ("AdaBoost",
       [("n_estimators", [PInt 50; PInt 100; PInt 200]);
        ("learning_rate", [PFloat (1 # 10); PFloat (1 # 2); PFloat 1])]) ].

(** [ParameterGrid]: keys in sorted order, the last key varying fastest. *)
Fixpoint insert_key (kv : string * list Param) (g : Grid) : Grid :=
  match g with
  | [] => [kv]
  | kv' :: g' =>
      match String.compare (fst kv) (fst kv') with
      | Gt => kv' :: insert_key kv g'
      | _ => kv :: g
      end
  end.

Definition sorted_items (g : Grid) : Grid := fold_right insert_key [] g.

Fixpoint product (g : Grid) : list (dict Param) :=
  match g with
  | [] => [[]]
  | (k, vs) :: g' =>
      flat_map (fun v => map (fun c => (k, v) :: c) (product g')) vs
  end.

Definition candidates (g : Grid) : list (dict Param) := product (sorted_items g).


Record SearchResult {SK : Sklearn} := mkSearch {
  best_params_ : dict Param;
  best_estimator_ : Fitted;
  best_score_ : Q
}.

Section WithSklearn.
Context {SK : Sklearn}.

(** The mean over the folds of the candidate's scores. *)
Definition mean_test_score (scoring : string) (cv : nat) (base : Estimator)
    (X : Matrix) (y : list Cell) (c : dict Param) : Q :=
  Scaler.qsum (map (cv_score scoring cv (set_params base c) X y) (seq 0 cv))
  / inject_Z (Z.of_nat cv).

(** [GridSearchCV(base, grid, cv=cv, scoring=scoring).fit(X, y)] with the
    default [refit=True]: the first candidate of rank 1 wins and is
    fitted again on all of [(X, y)].  [None] is the [ValueError] of a
    search without candidates. *)
Definition grid_search_fit (base : Estimator) (grid : Grid) (cv : nat)
    (scoring : string) (X : Matrix) (y : list Cell) : option SearchResult :=
  match Select.py_max (mean_test_score scoring cv base X y) (candidates grid) with
  | None => None
  | Some c =>
      Some {| best_params_ := c;
              best_estimator_ := fit (set_params base c) X y;
              best_score_ := mean_test_score scoring cv base X y c |}
  end.

End WithSklearn.

End Tune.

(* ================================================================== *)
(** ** The script as a program: exceptions, [st.stop] and visible effects *)

Module Py.

Inductive Exn :=
| URLError (reason : string)
| KeyError (key : string)
| NameError (name : string)
| ValueError (msg : string)
| IndexError
| NotFittedError
| FileNotFoundError (path : string)
| UnpicklingError (path : string)
| OtherError (msg : string).

(** How a run of (a part of) the script ends. *)
Inductive Res (A : Type) :=
| Ok (a : A)
| Stopped
| Raised (e : Exn).
Arguments Ok {A} a.
Arguments Stopped {A}.
Arguments Raised {A} e.

(** What a run shows or does to the outside, in order. *)
Inductive Event :=
| StError (msg : string)
| StSuccess (msg : string)
| StTitle (t : string)
| StWrite (t : string)
| StWriteScore (label : string) (v : Q)
| StDataframe
| StDescribe
| StHeatmap
| Scaled
| SplitDone
| Trained (name : string)
| Tuned (name : string)
| Dumped (path : string)
| Loaded (path : string)
| Predicted (label : DataPrep.Cell).

Section WithSklearn.
Context {SK : Sklearn}.

(** A file is a pickled estimator or something [joblib.load] rejects. *)
Inductive FileContent :=
| Pickle (m : Fitted)
| Unreadable.

(** The mutable world of a run: the [scaler] object ([None] until it is
    fitted), the files on disk, and the effects so far. *)
Record State := mkState {
  scaler : option Scaler.ScalerState;
  files : dict FileContent;
  trace : list Event
}.

Definition M (A : Type) := State -> State * Res A.

Definition ret {A} (a : A) : M A := fun s => (s, Ok a).

Definition bind {A B} (m : M A) (k : A -> M B) : M B :=
  fun s =>
    match m s with
    | (s', Ok a) => k a s'
    | (s', Stopped) => (s', Stopped)
    | (s', Raised e) => (s', Raised e)
    end.

Definition raise {A} (e : Exn) : M A := fun s => (s, Raised e).

(** [st.stop()] *)
Definition st_stop {A} : M A := fun s => (s, Stopped).

(** The state after some more visible effects. *)
Definition add_events (evs : list Event) (s : State) : State :=
  mkState (scaler s) (files s) (trace s ++ evs).

Definition emit (ev : Event) : M unit :=
  fun s => (add_events [ev] s, Ok tt).

Definition emit_all (evs : list Event) : M unit :=
  fun s => (add_events evs s, Ok tt).

Definition when (b : bool) (m : M unit) : M unit := if b then m else ret tt.

Definition from_option {A} (e : Exn) (o : option A) : M A :=
  match o with
  | Some a => ret a
  | None => raise e
  end.

End WithSklearn.

End Py.

Declare Scope py_scope.
Delimit Scope py_scope with py.
Notation "x <- c ;; k" := (Py.bind c (fun x => k))
  (at level 61, c at next level, right associativity) : py_scope.
Notation "c ;; k" := (Py.bind c (fun _ => k))
  (at level 61, right associativity) : py_scope.

(** What the script takes from Streamlit: the widgets report the state
    of the page, and a number input never reports a value outside the
    bounds it was created with. *)
Class Streamlit := {
  UI : Type;
  checkbox : UI -> string -> bool;
  button : UI -> string -> bool;
  selectbox : UI -> string -> list string -> string;
  number_input_int : UI -> string -> Z -> Z -> Z -> Z;
  number_input_float : UI -> string -> Q -> Q -> Q -> Q;
  number_input_int_range :
    forall ui label lo hi value,
      (lo <= value <= hi)%Z ->
      (lo <= number_input_int ui label lo hi value <= hi)%Z;
  number_input_float_range :
    forall ui label lo hi value,
      lo <= value /\ value <= hi ->
      lo <= number_input_float ui label lo hi value /\
      number_input_float ui label lo hi value <= hi
}.

(* ================================================================== *)
(** ** joji.py, top to bottom *)

Module App.
Import DataPrep Models Py.
Local Open Scope py_scope.

(** What [pd.read_csv] does at line 25. *)
Inductive ReadCsv :=
| CsvOk (df : DataFrame)
| CsvRaises (e : Exn).

Definition model_path : string := "diabetes_model.pkl".

(** The eight values of lines 146-159. *)
Record Inputs := mkInputs {
  pregnancies : Z;
  glucose : Z;
  blood_pressure : Z;
  skin_thickness : Z;
  insulin : Z;
  bmi : Q;
  diabetes_pedigree : Q;
  age : Z
}.

(** Lines 162-163. *)
Definition input_data (i : Inputs) : Matrix :=
  [[Some (inject_Z (pregnancies i)); Some (inject_Z (glucose i));
    Some (inject_Z (blood_pressure i)); Some (inject_Z (skin_thickness i));
    Some (inject_Z (insulin i)); Some (bmi i); Some (diabetes_pedigree i);
    Some (inject_Z (age i))]].




Section WithLibraries.
Context {SK : Sklearn} {ST : Streamlit}.

(** One run: what the download does and the state of the page. *)
Record Env := mkEnv {
  read_csv : ReadCsv;
  ui : UI
}.

(** Lines 20-37; only [URLError] is caught.  The [st.cache_data]
    decorator stores the result for later runs; within one run it is a
    plain call. *)
Definition load_data (r : ReadCsv) : M (option DataFrame) :=
  match r with
  | CsvRaises (URLError e) =>
      emit (StError (String.append "Failed to load data. Error: " e)) ;;
      ret None
  | CsvRaises e => raise e
  | CsvOk df => ret (Some (clean df))
  end.

(** [scaler.fit_transform(X)]: stores the fitted state in the scaler. *)
Definition scaler_fit_transform (X : Matrix) : M Matrix :=
  match X with
  | [] => raise (ValueError "Found array with 0 sample(s)")
  | _ =>
      let st := Scaler.fit np_sqrt X in
      fun s =>
        match Scaler.transform st X with
        | Some Xs => (mkState (Some st) (files s) (trace s ++ [Scaled]), Ok Xs)
        | None => (s, Raised (ValueError "inconsistent number of features"))
        end
  end.

(** [scaler.transform(X)]: reads the scaler, never writes it. *)
Definition scaler_transform (X : Matrix) : M Matrix :=
  fun s =>
    match scaler s with
    | None => (s, Raised NotFittedError)
    | Some st =>
        match Scaler.transform st X with
        | Some Xs => (s, Ok Xs)
        | None => (s, Raised (ValueError "inconsistent number of features"))
        end
    end.

(** [dump(m, path)] *)
Definition dump (m : Fitted) (path : string) : M unit :=
  fun s => (mkState (scaler s) (dict_set (files s) path (Pickle m))
                    (trace s ++ [Dumped path]), Ok tt).

(** [load(path)] *)
Definition load (path : string) : M Fitted :=
  fun s =>
    match dict_get (files s) path with
    | None => (s, Raised (FileNotFoundError path))
    | Some Unreadable => (s, Raised (UnpicklingError path))
    | Some (Pickle m) =>
        (mkState (scaler s) (files s) (trace s ++ [Loaded path]), Ok m)
    end.

(** Lines 110-136: tuning of the selected model; [models] is the global
    of line 74. *)
Definition tune (models : dict Estimator) (best_model_name : string)
    (X_train : Matrix) (y_train : list Cell) : M Tune.SearchResult :=
  best_model <- from_option (KeyError best_model_name)
                  (dict_get models best_model_name) ;;
  param_grid <- from_option (NameError "param_grid")
                  (Tune.param_grid best_model_name) ;;
  grid_search <- from_option (ValueError "No fits were performed")
                   (Tune.grid_search_fit best_model param_grid 5 "f1"
                      X_train y_train) ;;
  emit (Tuned best_model_name) ;;
  emit (StWriteScore
          (String.append "Optimized "
             (String.append best_model_name " Model F1-Score"))
          (Tune.best_score_ grid_search)) ;;
  ret grid_search.

(** The module-level names that later lines use. *)
Record Globals := mkGlobals {
  data : DataFrame;
  X : DataFrame;
  y : Series;
  X_scaled : Matrix;
  split : Split.SplitResult (list Cell) Cell;
  results : dict Metrics.Scores;
  best_model_name : string;
  grid_search : Tune.SearchResult
}.

Definition random_state : Z := 42.

(** Lines 39-139. *)
Definition pipeline (env : Env) : M Globals :=
  data <- load_data (read_csv env) ;;
  data <- match data with
          | None => st_stop
          | Some d => ret d
          end ;;
  emit (StTitle "Diabetes Prediction Web App") ;;
  emit (StWrite "### Exploratory Data Analysis (EDA)") ;;
  when (checkbox (ui env) "Show Dataset") (emit StDataframe) ;;
  when (checkbox (ui env) "Show Summary Statistics") (emit StDescribe) ;;
  when (checkbox (ui env) "Show Correlation Heatmap") (emit StHeatmap) ;;
  X <- from_option (KeyError "Outcome") (Frame.drop_column data "Outcome") ;;
  y <- from_option (KeyError "Outcome") (dict_get data "Outcome") ;;
  X_scaled <- scaler_fit_transform (Frame.to_rows X) ;;
  sp <- from_option (ValueError "train_test_split")
          (Split.train_test_split rng_permutation [] None X_scaled y
             random_state) ;;
  emit SplitDone ;;
  let results :=
    Select.train_and_evaluate (Split.X_train sp) (Split.y_train sp)
      (Split.X_test sp) (Split.y_test sp) models in
  emit_all (map Trained (keys models)) ;;
  best_model_name <- from_option (ValueError "max() arg is an empty sequence")
                       (Select.best_model_name results) ;;
  best_metrics <- from_option (KeyError best_model_name)
                    (dict_get results best_model_name) ;;
  emit (StWrite (String.append "### Best Model: " best_model_name)) ;;
  emit (StWriteScore "Accuracy" (Metrics.Accuracy best_metrics)) ;;
  emit (StWriteScore "Precision" (Metrics.Precision best_metrics)) ;;
  emit (StWriteScore "Recall" (Metrics.Recall best_metrics)) ;;
  emit (StWriteScore "F1-Score" (Metrics.F1_Score best_metrics)) ;;
  grid_search <- tune models best_model_name (Split.X_train sp)
                   (Split.y_train sp) ;;
  dump (Tune.best_estimator_ grid_search) model_path ;;
  ret (mkGlobals data X y X_scaled sp results best_model_name grid_search).

(** Lines 146-159: the values the widgets report. *)
Definition collect_inputs (u : UI) : Inputs :=
  let gender := selectbox u "Gender" ["Male"; "Female"] in
  let pregnancies :=
    if String.eqb gender "Female"
    then number_input_int u "Pregnancies" 0 20 1
    else 0%Z in
  {| pregnancies := pregnancies;
     glucose := number_input_int u "Glucose Level" 0 300 100;
     blood_pressure := number_input_int u "Blood Pressure" 0 200 70;
     skin_thickness := number_input_int u "Skin Thickness" 0 100 20;
     insulin := number_input_int u "Insulin" 0 900 80;
     bmi := number_input_float u "BMI" 0 70 25;
     diabetes_pedigree :=
       number_input_float u "Diabetes Pedigree Function" 0 3 (1 # 2);
     age := number_input_int u "Age" 0 120 30 |}.

(** The message of lines 172-175. *)
Definition verdict (p : Cell) : Event :=
  if Metrics.is_pos p
  then StError "The patient is likely to have diabetes."
  else StSuccess "The patient is unlikely to have diabetes.".

(** Lines 162-175: the body of the [if st.button(...)]. *)
Definition predict_diabetes (i : Inputs) : M unit :=
  input_data_scaled <- scaler_transform (input_data i) ;;
  model <- load model_path ;;
  let prediction := predict model input_data_scaled in
  match prediction with
  | [] => raise IndexError
  | p :: _ =>
      emit (Predicted p) ;;
      emit (verdict p)
  end.

(** Lines 144-175. *)
Definition prediction_ui (env : Env) : M unit :=
  emit (StTitle "Make a Prediction") ;;
  let i := collect_inputs (ui env) in
  when (button (ui env) "Predict Diabetes") (predict_diabetes i).

(** The whole script. *)
Definition script (env : Env) : M unit :=
  pipeline env ;;
  prediction_ui env.




End WithLibraries.

End App.

(* ================================================================== *)
(** ** A small concrete world, to run the script on *)

Module Demo.
Import DataPrep Models.

(** A classifier that answers 0 whatever it is shown. *)
#[local] Instance sklearn : Sklearn := {|
  Fitted := Estimator;
  np_sqrt := fun q => q;
  rng_permutation := fun _ n => seq 0 n;
  rng_permutation_perm := fun _ n => Permutation_refl (seq 0 n);
  fit := fun e _ _ => e;
  predict := fun _ X => map (fun _ => Some 0) X;
  cv_score := fun _ _ _ _ _ _ => 0
|}.

(** A page: is the button pressed, and which gender is selected. *)
Record Page := mkPage {
  pressed : bool;
  gender : string
}.

Definition default_int_range (ui : Page) (label : string) (lo hi value : Z)
    (H : (lo <= value <= hi)%Z) : (lo <= value <= hi)%Z := H.

Definition default_float_range (ui : Page) (label : string) (lo hi value : Q)
    (H : lo <= value /\ value <= hi) : lo <= value /\ value <= hi := H.

(** Every number input is left at its initial value. *)
#[local] Instance streamlit : Streamlit := {|
  UI := Page;
  checkbox := fun _ _ => false;
  button := fun u _ => pressed u;
  selectbox := fun u _ _ => gender u;
  number_input_int := fun _ _ _ _ value => value;
  number_input_float := fun _ _ _ _ value => value;
  number_input_int_range := default_int_range;
  number_input_float_range := default_float_range
|}.

Definition column_of (l : list Z) : Series := map (fun z => Some (inject_Z z)) l.

(** Five records in the layout of the CSV file. *)
Definition table : DataFrame :=
  [ ("Pregnancies", column_of [6; 1; 8; 1; 0]%Z);
    ("Glucose", column_of [148; 85; 183; 89; 0]%Z);
    ("BloodPressure", column_of [72; 66; 64; 66; 40]%Z);
    ("SkinThickness", column_of [35; 29; 0; 23; 35]%Z);
    ("Insulin", column_of [0; 0; 0; 94; 168]%Z);
    ("BMI", [Some (336 # 10); Some (266 # 10); Some (233 # 10);
             Some (281 # 10); Some (431 # 10)]);
    ("DiabetesPedigreeFunction",
       [Some (627 # 1000); Some (351 # 1000); Some (672 # 1000);
        Some (167 # 1000); Some (2288 # 1000)]);
    ("Age", column_of [50; 31; 32; 21; 33]%Z);
    ("Outcome", column_of [1; 0; 1; 0; 1]%Z) ].

Definition env : App.Env := App.mkEnv (App.CsvOk table) (mkPage true "Female").


(** The download fails. *)
Definition offline : App.Env :=
  App.mkEnv (App.CsvRaises (Py.URLError "timed out")) (mkPage true "Male").

Definition start : Py.State := Py.mkState None [] [].

End Demo.

(* ================================================================== *)
(** ** Measures used to state further properties *)

Module Obs.

(** The number of combinations of a grid: the product of the numbers of
    values of its parameters. *)
Definition grid_size (g : Tune.Grid) : nat :=
  fold_right Nat.mul 1%nat (map (fun kv => List.length (snd kv)) g).

(** A score that is a proportion. *)
Definition proportion (q : Q) : Prop := 0 <= q /\ q <= 1.


(** A download with a single record. *)
Definition one_row : DataPrep.DataFrame :=
  map (fun kv => (fst kv, firstn 1 (snd kv))) Demo.table.

Definition one_row_env : @App.Env Demo.streamlit :=
  @App.mkEnv Demo.streamlit (App.CsvOk one_row) (Demo.mkPage true "Female").

End Obs.

(* ================================================================== *)
(** * Properties *)

(** ** Dictionaries *)

Section DictFacts.
Variables V W : Type.

Lemma dict_get_map_vals (f : string -> V -> W) (d : dict V) (k : string) :
  dict_get (map (fun kv => (fst kv, f (fst kv) (snd kv))) d) k
  = option_map (f k) (dict_get d k).
Proof.
  induction d as [|[k' v] d IH]; simpl; [reflexivity|].
  destruct (String.eqb k' k) eqn:E.
  - apply String.eqb_eq in E. subst k'. reflexivity.
  - exact IH.
Qed.

Lemma dict_get_In (d : dict V) (k : string) (v : V) :
  dict_get d k = Some v -> In (k, v) d.
Proof.
  induction d as [|[k' v'] d IH]; simpl; [discriminate|].
  destruct (String.eqb k' k) eqn:E.
  - apply String.eqb_eq in E. intros [= ->]. subst. now left.
  - intros H. right. now apply IH.
Qed.

Lemma dict_get_key (d : dict V) (k : string) :
  In k (keys d) -> exists v, dict_get d k = Some v.
Proof.
  induction d as [|[k' v'] d IH]; simpl; [tauto|].
  intros [->|H].
  - rewrite String.eqb_refl. eauto.
  - destruct (String.eqb k' k); eauto.
Qed.

Lemma keys_dict_set_new (d : dict V) (k : string) (v : V) :
  ~ In k (keys d) -> keys (dict_set d k v) = keys d ++ [k].
Proof.
  induction d as [|[k' v'] d IH]; simpl; [reflexivity|].
  intros H. destruct (String.eqb k' k) eqn:E.
  - apply String.eqb_eq in E. tauto.
  - simpl. f_equal. apply IH. tauto.
Qed.

Lemma dict_get_set_same (d : dict V) (k : string) (v : V) :
  dict_get (dict_set d k v) k = Some v.
Proof.
  induction d as [|[k' v'] d IH]; simpl.
  - now rewrite String.eqb_refl.
  - destruct (String.eqb k' k) eqn:E; simpl; rewrite E; auto.
Qed.

Lemma dict_get_set_other (d : dict V) (k k0 : string) (v : V) :
  k <> k0 -> dict_get (dict_set d k v) k0 = dict_get d k0.
Proof.
  intros Hne. induction d as [|[k' v'] d IH]; simpl.
  - destruct (String.eqb k k0) eqn:E; [|reflexivity].
    apply String.eqb_eq in E. contradiction.
  - destruct (String.eqb k' k) eqn:E; simpl.
    + apply String.eqb_eq in E. subst k'.
      destruct (String.eqb k k0) eqn:E0; [|reflexivity].
      apply String.eqb_eq in E0. contradiction.
    + now rewrite IH.
Qed.

End DictFacts.

(** ** Data preparation *)

Module DataPrepFacts.
Import DataPrep.

Lemma replace_in_get (cols : list string) (df : DataFrame) (c : string) :
  dict_get (replace_in cols df) c
  = option_map (fun s => if mem_str c cols then replace_zero s else s)
      (dict_get df c).
Proof.
  unfold replace_in.
  rewrite <- (dict_get_map_vals
                (fun n s => if mem_str n cols then replace_zero s else s)).
  f_equal. apply map_ext. intros [n s]. simpl. now destruct (mem_str n cols).
Qed.

Lemma df_median_get (df : DataFrame) (c : string) :
  dict_get (df_median df) c = option_map median (dict_get df c).
Proof.
  unfold df_median.
  rewrite <- (dict_get_map_vals (fun _ s => median s)).
  f_equal. apply map_ext. now intros [n s].
Qed.

Lemma fillna_get (df : DataFrame) (values : dict Cell) (c : string) :
  dict_get (fillna df values) c
  = option_map (fill_with (dict_get values c)) (dict_get df c).
Proof.
  unfold fillna.
  rewrite <- (dict_get_map_vals (fun n s => fill_with (dict_get values n) s)).
  f_equal. apply map_ext. intros [n s]. simpl.
  now destruct (dict_get values n) as [[m|]|].
Qed.

(** The column [c] of the cleaned table, in terms of the column read. *)
Lemma clean_get (df : DataFrame) (c : string) (s : Series) :
  In c cols_with_zeros ->
  dict_get df c = Some s ->
  dict_get (clean df) c
  = Some (fill_with (Some (median (replace_zero s))) (replace_zero s)).
Proof.
  intros Hc Hs.
  assert (Hmem : mem_str c cols_with_zeros = true).
  { apply existsb_exists. exists c. split; [exact Hc|]. apply String.eqb_refl. }
  unfold clean.
  rewrite fillna_get, df_median_get, replace_in_get, Hs, Hmem.
  reflexivity.
Qed.

Lemma nth_error_fill_with (m : Q) (s : Series) (i : nat) (x : Cell) :
  nth_error s i = Some x ->
  nth_error (fill_with (Some (Some m)) (replace_zero s)) i
  = Some (if zero_or_missing x then Some m else x).
Proof.
  intros H. simpl. unfold replace_zero.
  rewrite !nth_error_map, H. simpl.
  destruct x as [v|]; simpl; [|reflexivity].
  now destruct (Qeq_bool v 0).
Qed.

(** The sort behind the median orders its input. *)
Lemma insert_sorted_perm (x : Q) (l : list Q) :
  Permutation (insert_sorted x l) (x :: l).
Proof.
  induction l as [|y l IH]; simpl; [reflexivity|].
  destruct (Qle_bool x y); [reflexivity|].
  rewrite IH. apply perm_swap.
Qed.

Lemma sort_perm (l : list Q) : Permutation (sort l) l.
Proof.
  induction l as [|x l IH]; simpl; [reflexivity|].
  rewrite insert_sorted_perm. now constructor.
Qed.



Lemma length_sort (l : list Q) : List.length (sort l) = List.length l.
Proof. apply Permutation_length, sort_perm. Qed.

(** A column without numbers has no median; one number is its own. *)
Lemma median_of_nil : median_of [] = None.
Proof. reflexivity. Qed.

Lemma median_of_some (l : list Q) :
  l <> [] -> exists m, median_of l = Some m.
Proof.
  intros H. unfold median_of. rewrite length_sort.
  destruct l as [|x l]; [congruence|]. cbv zeta.
  destruct (List.length (x :: l)) eqn:E; [discriminate|].
  destruct (Nat.odd (S n)); eauto.
Qed.

Example median_of_four :
  median_of [148; 85; 183; 89] = Some ((89 + 148) / 2).
Proof. reflexivity. Qed.

Example median_of_three : median_of [35; 23; 29] = Some 29.
Proof. reflexivity. Qed.

(** After line 32 the numbers left in a column are the nonzero ones. *)
Lemma dropna_replace_zero (s : Series) :
  dropna (replace_zero s) = filter (fun v => negb (Qeq_bool v 0)) (dropna s).
Proof.
  induction s as [|[v|] s IH]; simpl; auto.
  destruct (Qeq_bool v 0); simpl; now rewrite IH.
Qed.

End DataPrepFacts.

(** C2. For every row and each of the columns Glucose, BloodPressure,
    SkinThickness, Insulin and BMI, [load_data] returns a table in which
    a value that was 0 (or missing) is the median of the column's
    remaining values, the nonzero numbers, and every other value is
    kept; when that median is a nonzero number, the value in the
    returned table is a nonzero number. *)
Theorem C2_zeros_replaced_by_median {SK : Sklearn}
    (df : DataPrep.DataFrame) (st : Py.State)
    (c : string) (s : DataPrep.Series) (i : nat) (x : DataPrep.Cell) :
  keys df = DataPrep.col_names ->
  In c DataPrep.cols_with_zeros ->
  dict_get df c = Some s ->
  nth_error s i = Some x ->
  let med :=
    DataPrep.median_of
      (filter (fun v => negb (Qeq_bool v 0)) (DataPrep.dropna s)) in
  exists out s',
    App.load_data (App.CsvOk df) st = (st, Py.Ok (Some out)) /\
    dict_get out c = Some s' /\
    nth_error s' i = Some (if DataPrep.zero_or_missing x then med else x) /\
    (forall m, med = Some m -> ~ m == 0 ->
       exists v, nth_error s' i = Some (Some v) /\ ~ v == 0).
Proof.
  intros _ Hc Hs Hx med.
  pose proof (DataPrepFacts.clean_get df Hc Hs) as Hget.
  unfold DataPrep.median in Hget.
  rewrite DataPrepFacts.dropna_replace_zero in Hget. fold med in Hget.
  eexists. eexists. split; [reflexivity|]. split; [exact Hget|].
  assert (Hnth : nth_error
                   (DataPrep.fill_with (Some med) (DataPrep.replace_zero s)) i
                 = Some (if DataPrep.zero_or_missing x then med else x)).
  { destruct med as [m|].
    - now apply DataPrepFacts.nth_error_fill_with.
    - simpl. unfold DataPrep.replace_zero. rewrite nth_error_map, Hx. simpl.
      destruct x as [v|]; simpl; [|reflexivity].
      now destruct (Qeq_bool v 0). }
  split; [exact Hnth|].
  intros m Hm Hm0. rewrite Hnth, Hm.
  destruct x as [v|]; simpl.
  - destruct (Qeq_bool v 0) eqn:E.
    + exists m. now split.
    + exists v. split; [reflexivity|].
      intros Hv. apply Qeq_bool_iff in Hv. congruence.
  - exists m. now split.
Qed.

Lemma C2_witness :
  exists out s',
    App.load_data (App.CsvOk Demo.table) Demo.start
    = (Demo.start, Py.Ok (Some out)) /\
    dict_get out "Glucose" = Some s' /\
    nth_error s' 4 = Some (Some ((89 + 148) / 2)) /\
    (forall m, Some ((89 + 148) / 2) = Some m -> ~ m == 0 ->
       exists v, nth_error s' 4 = Some (Some v) /\ ~ v == 0).
Proof.
  exact (@C2_zeros_replaced_by_median Demo.sklearn Demo.table Demo.start
           "Glucose" _ 4%nat (Some 0)
           eq_refl (or_introl eq_refl) eq_refl eq_refl).
Defined.

(** ** Best-model selection *)

Module SelectFacts.
Import Select.

Section MaxLoop.
Variable A : Type.
Variable key : A -> Q.

Lemma max_loop_ge (l : list A) (best : A) :
  key best <= key (max_loop key best l).
Proof.
  revert best. induction l as [|x l IH]; intros best; simpl.
  - apply Qle_refl.
  - destruct (Qle_bool (key x) (key best)) eqn:E; simpl.
    + apply IH.
    + apply Qle_trans with (key x); [|apply IH].
      apply Qlt_le_weak, Qnot_le_lt. intros H.
      apply Qle_bool_iff in H. congruence.
Qed.

(** The result splits the sequence: strictly smaller keys before it, no
    greater key after it. *)
Lemma max_loop_split (l : list A) (best : A) :
  exists pre post,
    best :: l = pre ++ max_loop key best l :: post /\
    (forall x, In x pre -> key x < key (max_loop key best l)) /\
    (forall x, In x post -> key x <= key (max_loop key best l)).
Proof.
  revert best. induction l as [|x l IH]; intros best; simpl.
  - exists [], []. simpl. repeat split; tauto.
  - destruct (Qle_bool (key x) (key best)) eqn:E; simpl.
    + apply Qle_bool_iff in E.
      destruct (IH best) as (pre & post & Heq & Hpre & Hpost).
      destruct pre as [|p pre].
      * simpl in Heq. injection Heq as Hb Hl.
        exists [], (x :: l). simpl. rewrite <- Hb.
        split; [reflexivity|]. split; [tauto|].
        intros z [<-|Hz]; [exact E|].
        rewrite Hb. apply Hpost. rewrite <- Hl. exact Hz.
      * simpl in Heq. injection Heq as Hp Hl. subst p.
        exists (best :: x :: pre), post. simpl.
        split; [do 2 f_equal; exact Hl|]. split; [|exact Hpost].
        intros z [<-|[<-|Hz]].
        -- apply Hpre. now left.
        -- apply Qle_lt_trans with (key best); [exact E|].
           apply Hpre. now left.
        -- apply Hpre. now right.
    + assert (Hlt : key best < key x).
      { apply Qnot_le_lt. intros H. apply Qle_bool_iff in H. congruence. }
      destruct (IH x) as (pre & post & Heq & Hpre & Hpost).
      exists (best :: pre), post. simpl.
      split; [f_equal; exact Heq|]. split; [|exact Hpost].
      intros z [<-|Hz]; [|now apply Hpre].
      apply Qlt_le_trans with (key x); [exact Hlt|apply max_loop_ge].
Qed.

Lemma py_max_split (l : list A) :
  l <> [] ->
  exists b pre post,
    py_max key l = Some b /\ l = pre ++ b :: post /\
    (forall x, In x pre -> key x < key b) /\
    (forall x, In x post -> key x <= key b).
Proof.
  destruct l as [|x l]; [congruence|]. intros _. simpl.
  destruct (max_loop_split l x) as (pre & post & H).
  exists (max_loop key x l), pre, post. tauto.
Qed.

Lemma py_max_ge (l : list A) (b x : A) :
  py_max key l = Some b -> In x l -> key x <= key b.
Proof.
  intros Hb Hx.
  destruct (py_max_split (l := l)) as (b' & pre & post & Hb' & Hl & Hpre & Hpost).
  { intros ->. contradiction. }
  rewrite Hb in Hb'. injection Hb' as <-.
  rewrite Hl in Hx. apply in_app_or in Hx. destruct Hx as [Hx|[<-|Hx]].
  - apply Qlt_le_weak. now apply Hpre.
  - apply Qle_refl.
  - now apply Hpost.
Qed.

End MaxLoop.

Import Metrics.

Lemma f1_of_get (results : dict Scores) (name : string) (m : Scores) :
  dict_get results name = Some m -> f1_of results name = F1_Score m.
Proof. unfold f1_of. now intros ->. Qed.

Lemma get_in_keys (results : dict Scores) (name : string) (m : Scores) :
  dict_get results name = Some m -> In name (keys results).
Proof.
  intros H. apply dict_get_In in H. unfold keys.
  change name with (fst (name, m)). now apply in_map.
Qed.

(** What line 98 returns on a dictionary that is not empty. *)
Lemma best_model_name_spec (results : dict Scores) :
  results <> [] ->
  exists best m pre post,
    best_model_name results = Some best /\
    dict_get results best = Some m /\
    keys results = pre ++ best :: post /\
    (forall name m', dict_get results name = Some m' ->
       F1_Score m' <= F1_Score m) /\
    (forall name m', In name pre -> dict_get results name = Some m' ->
       F1_Score m' < F1_Score m).
Proof.
  intros Hne.
  destruct (py_max_split (f1_of results) (l := keys results))
    as (best & pre & post & Hbest & Hkeys & Hpre & Hpost).
  { destruct results; [congruence|discriminate]. }
  assert (Hin : In best (keys results)).
  { rewrite Hkeys. apply in_or_app. right. now left. }
  destruct (dict_get_key _ _ Hin) as [m Hm].
  exists best, m, pre, post.
  split; [exact Hbest|]. split; [exact Hm|]. split; [exact Hkeys|].
  rewrite <- (f1_of_get _ _ Hm). split.
  - intros name m' Hget. rewrite <- (f1_of_get _ _ Hget).
    eapply py_max_ge; [exact Hbest|]. eapply get_in_keys; eauto.
  - intros name m' Hname Hget. rewrite <- (f1_of_get _ _ Hget).
    now apply Hpre.
Qed.

Section Loop.
Context {SK : Sklearn}.
Variables (Xtr : Matrix) (ytr : list DataPrep.Cell)
          (Xte : Matrix) (yte : list DataPrep.Cell).

(** The loop fills one entry per model, in the order of the Model Bank. *)
Lemma train_and_evaluate_models :
  train_and_evaluate Xtr ytr Xte yte Models.models
  = map (fun '(name, model) => (name, evaluate Xtr ytr Xte yte model))
        Models.models.
Proof. reflexivity. Qed.

Lemma keys_results :
  keys (train_and_evaluate Xtr ytr Xte yte Models.models) = keys Models.models.
Proof. reflexivity. Qed.

End Loop.

End SelectFacts.

(** C3. On the results of the training loop over the Model Bank, the
    selection of line 98 returns a model whose F1 score is at least the
    F1 score of every model, and every model that comes before it in
    the order of the Model Bank has a strictly smaller F1 score: among
    the models of maximal F1 the first one is returned. *)
Theorem C3_best_model_first_max_f1 {SK : Sklearn}
    (Xtr : Matrix) (ytr : list DataPrep.Cell)
    (Xte : Matrix) (yte : list DataPrep.Cell) :
  let results := Select.train_and_evaluate Xtr ytr Xte yte Models.models in
  exists best m pre post,
    Select.best_model_name results = Some best /\
    dict_get results best = Some m /\
    keys Models.models = pre ++ best :: post /\
    (forall name m', dict_get results name = Some m' ->
       Metrics.F1_Score m' <= Metrics.F1_Score m) /\
    (forall name m', In name pre -> dict_get results name = Some m' ->
       Metrics.F1_Score m' < Metrics.F1_Score m).
Proof.
  intros results.
  rewrite <- (SelectFacts.keys_results Xtr ytr Xte yte). fold results.
  apply SelectFacts.best_model_name_spec.
  unfold results. rewrite SelectFacts.train_and_evaluate_models. discriminate.
Qed.

(** ** Running the script *)

Module PyFacts.
Import Py.

Section WithSklearn.
Context {SK : Sklearn}.
Variables A B : Type.

Lemma add_events_nil (s : State) : add_events [] s = s.
Proof. destruct s. unfold add_events. simpl. now rewrite app_nil_r. Qed.

Lemma add_events_app (e1 e2 : list Event) (s : State) :
  add_events e2 (add_events e1 s) = add_events (e1 ++ e2) s.
Proof. unfold add_events. simpl. now rewrite app_assoc. Qed.

Lemma bind_ret (a : A) (k : A -> M B) (s : State) :
  bind (ret a) k s = k a s.
Proof. reflexivity. Qed.

Lemma bind_raise (e : Exn) (k : A -> M B) (s : State) :
  bind (raise e) k s = (s, Raised e).
Proof. reflexivity. Qed.

Lemma bind_stop (k : A -> M B) (s : State) :
  bind st_stop k s = (s, Stopped).
Proof. reflexivity. Qed.

Lemma bind_emit (ev : Event) (k : unit -> M B) (s : State) :
  bind (emit ev) k s = k tt (add_events [ev] s).
Proof. reflexivity. Qed.

Lemma bind_emit_all (evs : list Event) (k : unit -> M B) (s : State) :
  bind (emit_all evs) k s = k tt (add_events evs s).
Proof. reflexivity. Qed.

Lemma bind_when_emit (b : bool) (ev : Event) (k : unit -> M B) (s : State) :
  bind (when b (emit ev)) k s
  = k tt (add_events (if b then [ev] else []) s).
Proof. destruct b; simpl; [reflexivity|]. now rewrite add_events_nil. Qed.

Lemma bind_from_option_some (e : Exn) (a : A) (k : A -> M B) (s : State) :
  bind (from_option e (Some a)) k s = k a s.
Proof. reflexivity. Qed.

Lemma bind_from_option_none (e : Exn) (k : A -> M B) (s : State) :
  bind (from_option e None) k s = (s, Raised e).
Proof. reflexivity. Qed.

Lemma bind_bind (C : Type) (m : M A) (f : A -> M B) (g : B -> M C)
    (s : State) :
  bind (bind m f) g s = bind m (fun a => bind (f a) g) s.
Proof. unfold bind. destruct (m s) as [s' [a| |e]]; reflexivity. Qed.

End WithSklearn.

End PyFacts.

Create Rewrite HintDb py_run.

#[export] Hint Rewrite
  @PyFacts.bind_bind @PyFacts.bind_ret @PyFacts.bind_raise @PyFacts.bind_stop
  @PyFacts.bind_emit @PyFacts.bind_emit_all @PyFacts.bind_when_emit
  @PyFacts.bind_from_option_some @PyFacts.bind_from_option_none : py_run.


Ltac run :=
  repeat (progress (cbv beta zeta iota; autorewrite with py_run)).

Module AppFacts.
Import DataPrep Models Py App.

Section WithLibraries.
Context {SK : Sklearn} {ST : Streamlit}.
Variable B : Type.

Lemma bind_fit_transform (X : Matrix) (k : Matrix -> M B) (s : State) :
  bind (scaler_fit_transform X) k s
  = match X with
    | [] => (s, Raised (ValueError "Found array with 0 sample(s)"))
    | _ :: _ =>
        match Scaler.transform (Scaler.fit np_sqrt X) X with
        | Some Xs =>
            k Xs (mkState (Some (Scaler.fit np_sqrt X)) (files s)
                    (trace s ++ [Scaled]))
        | None => (s, Raised (ValueError "inconsistent number of features"))
        end
    end.
Proof.
  destruct X as [|r X]; [reflexivity|].
  unfold bind, scaler_fit_transform.
  now destruct (Scaler.transform _ _).
Qed.


End WithLibraries.

Section Pipeline.
Context {SK : Sklearn} {ST : Streamlit}.


End Pipeline.

End AppFacts.

(** ** Shapes: the cleaned table, the scaled rows *)

Module ShapeFacts.
Import DataPrep.

Import Frame.

Lemma keys_replace_in (cols : list string) (df : DataFrame) :
  keys (replace_in cols df) = keys df.
Proof.
  unfold keys, replace_in. rewrite map_map. apply map_ext.
  intros [n s]. now destruct (mem_str n cols).
Qed.

Lemma keys_fillna (df : DataFrame) (values : dict Cell) :
  keys (fillna df values) = keys df.
Proof.
  unfold keys, fillna. rewrite map_map. apply map_ext.
  intros [n s]. now destruct (dict_get values n) as [[m|]|].
Qed.

Lemma keys_clean (df : DataFrame) : keys (clean df) = keys df.
Proof. unfold clean. now rewrite keys_fillna, keys_replace_in. Qed.

Lemma rectangular_replace_in (n : nat) (cols : list string) (df : DataFrame) :
  rectangular n df -> rectangular n (replace_in cols df).
Proof.
  unfold rectangular, replace_in. intros H. apply Forall_map.
  eapply Forall_impl; [|exact H]. intros [c s] Hs. simpl in *.
  destruct (mem_str c cols); simpl; [|exact Hs].
  unfold replace_zero. now rewrite length_map.
Qed.

Lemma rectangular_fillna (n : nat) (df : DataFrame) (values : dict Cell) :
  rectangular n df -> rectangular n (fillna df values).
Proof.
  unfold rectangular, fillna. intros H. apply Forall_map.
  eapply Forall_impl; [|exact H]. intros [c s] Hs. simpl in *.
  destruct (dict_get values c) as [[m|]|]; simpl; [|exact Hs..].
  now rewrite length_map.
Qed.

Lemma rectangular_clean (n : nat) (df : DataFrame) :
  rectangular n df -> rectangular n (clean df).
Proof.
  intros H. unfold clean.
  now apply rectangular_fillna, rectangular_replace_in.
Qed.

(** A table with the nine columns of the file, spelled out. *)
Lemma nine_columns (df : DataFrame) :
  keys df = col_names ->
  exists s1 s2 s3 s4 s5 s6 s7 s8 s9,
    df = [("Pregnancies", s1); ("Glucose", s2); ("BloodPressure", s3);
          ("SkinThickness", s4); ("Insulin", s5); ("BMI", s6);
          ("DiabetesPedigreeFunction", s7); ("Age", s8); ("Outcome", s9)].
Proof.
  unfold keys, col_names. intros H.
  do 9 (destruct df as [|[? ?] df]; [discriminate|]).
  destruct df; [|discriminate].
  simpl in H. injection H as -> -> -> -> -> -> -> -> ->.
  repeat eexists.
Qed.

Section Transform.
Variable sqrt : Q -> Q.

Lemma length_scale_row (r ms sds : list Cell) :
  List.length ms = List.length r -> List.length sds = List.length r ->
  List.length (Scaler.scale_row r ms sds) = List.length r.
Proof.
  revert ms sds. induction r as [|x r IH]; intros [|m ms] [|sd sds];
    simpl; try discriminate; auto.
Qed.

(** Rows that all have as many entries as the first one can be scaled
    by the state fitted on them. *)
Lemma transform_fit (X : Matrix) :
  Forall (fun r => List.length r = Scaler.n_features X) X ->
  exists Xs,
    Scaler.transform (Scaler.fit sqrt X) X = Some Xs /\
    List.length Xs = List.length X.
Proof.
  intros H. unfold Scaler.transform.
  assert (Hall : forallb
            (fun r => Nat.eqb (List.length r)
                        (List.length (Scaler.mean_ (Scaler.fit sqrt X)))) X
          = true).
  { apply forallb_forall. intros r Hr. apply Nat.eqb_eq.
    simpl. rewrite !length_map, length_seq.
    rewrite Forall_forall in H. now apply H. }
  rewrite Hall. eexists. split; [reflexivity|]. now rewrite length_map.
Qed.

End Transform.


End ShapeFacts.

(** ** Tuning *)

Module TuneFacts.
Import DataPrep Models Tune.



Lemma insert_key_perm (kv : string * list Param) (g : Grid) :
  Permutation (insert_key kv g) (kv :: g).
Proof.
  induction g as [|kv' g IH]; simpl; [reflexivity|].
  destruct (String.compare (fst kv) (fst kv')); try reflexivity.
  rewrite IH. apply perm_swap.
Qed.

Lemma sorted_items_perm (g : Grid) : Permutation (sorted_items g) g.
Proof.
  induction g as [|kv g IH]; simpl; [reflexivity|].
  rewrite insert_key_perm. now constructor.
Qed.

Section Search.
Context {SK : Sklearn}.
Variables (base : Estimator) (grid : Grid) (cv : nat) (scoring : string)
          (X : Matrix) (y : list Cell).



End Search.

End TuneFacts.

(** ** The split *)

Module SplitFacts.
Import Split.

Lemma n_test_le (n : nat) : (n_test n <= n)%nat.
Proof.
  unfold n_test.
  pose proof (Nat.div_mod_eq (n + 4) 5) as E.
  pose proof (Nat.mod_upper_bound (n + 4) 5 ltac:(lia)).
  destruct n; [reflexivity|]. lia.
Qed.

(** [n_test n] is the least integer that is at least [n / 5]. *)
Lemma n_test_ceil (n : nat) : (n <= 5 * n_test n < n + 5)%nat.
Proof.
  unfold n_test.
  pose proof (Nat.div_mod_eq (n + 4) 5) as E.
  pose proof (Nat.mod_upper_bound (n + 4) 5 ltac:(lia)). lia.
Qed.

Section WithRng.
Variable permutation : Z -> nat -> list nat.
Hypothesis permutation_perm :
  forall seed n, Permutation (permutation seed n) (seq 0 n).

Lemma length_permutation (seed : Z) (n : nat) :
  List.length (permutation seed n) = n.
Proof.
  rewrite (Permutation_length (permutation_perm seed n)). apply length_seq.
Qed.





Lemma length_test_indices (seed : Z) (n : nat) :
  List.length (test_indices permutation seed n) = n_test n.
Proof.
  unfold test_indices. rewrite length_firstn, length_permutation.
  pose proof (n_test_le n). lia.
Qed.

Lemma length_train_indices (seed : Z) (n : nat) :
  List.length (train_indices permutation seed n) = n_train n.
Proof.
  unfold train_indices.
  rewrite length_firstn, length_skipn, length_permutation.
  unfold n_train. lia.
Qed.

(** What a successful call returns. *)
Lemma train_test_split_some (A B : Type) (dA : A) (dB : B)
    (X : list A) (y : list B) (seed : Z) (sp : SplitResult A B) :
  train_test_split permutation dA dB X y seed = Some sp ->
  let n := List.length X in
  X_train sp = take_rows X dA (train_indices permutation seed n) /\
  X_test sp = take_rows X dA (test_indices permutation seed n) /\
  y_train sp = take_rows y dB (train_indices permutation seed n) /\
  y_test sp = take_rows y dB (test_indices permutation seed n).
Proof.
  unfold train_test_split. cbv zeta.
  destruct (negb _); [discriminate|].
  destruct (Nat.eqb _ 0); [discriminate|].
  intros [= <-]. simpl. tauto.
Qed.

End WithRng.

End SplitFacts.

(** ** Lines 39-139 on a well-formed table *)

Module PipelineFacts.
Import DataPrep Models Py App.

Section WithLibraries.
Context {SK : Sklearn} {ST : Streamlit}.


Lemma to_rows_widths (df : DataFrame) :
  Forall (fun r => List.length r = List.length df) (Frame.to_rows df).
Proof.
  unfold Frame.to_rows. apply Forall_map, Forall_forall. intros i _.
  unfold Frame.row_at. now rewrite length_map.
Qed.


End WithLibraries.

End PipelineFacts.

(** ** The split and the scaler in a run *)

Section SplitAndScaler.
Import DataPrep Py App.
Context {SK : Sklearn} {ST : Streamlit}.



End SplitAndScaler.




(** ** The prediction block *)

Module PredictFacts.
Import DataPrep Py App.

Section WithLibraries.
Context {SK : Sklearn} {ST : Streamlit}.




End WithLibraries.

End PredictFacts.




(** ** The tuning step *)

Module TuneStepFacts.
Import DataPrep Models Py App.


Lemma not_in_catalogue (name : string) :
  ~ In name (keys Tune.spec_grid_table) ->
  Tune.param_grid name = None /\ dict_get models name = None.
Proof.
  intros H. simpl in H.
  assert (Hne : forall k, In k (keys Tune.spec_grid_table) ->
                  String.eqb k name = false).
  { intros k Hk. apply String.eqb_neq. intros ->. now apply H. }
  unfold Tune.param_grid, models, dict_get.
  rewrite (String.eqb_sym name "Random Forest"),
    (String.eqb_sym name "Decision Tree"), (String.eqb_sym name "SVM"),
    (String.eqb_sym name "Logistic Regression"),
    (String.eqb_sym name "AdaBoost").
  rewrite !Hne by (simpl; tauto). now split.
Qed.

Section WithSklearn.
Context {SK : Sklearn}.


End WithSklearn.

End TuneStepFacts.



(** C6. A selected name that is no entry of the grid catalogue takes no
    branch of lines 112-128, and the tuning step stops at once with an
    exception, before any search, with nothing shown and nothing
    written: a [KeyError] when the name is not in the bank either, as is
    the case for the Model Bank of the script, and else the [NameError]
    of the unbound [param_grid]. *)
Theorem C6_unknown_model_fails_fast {SK : Sklearn} (name : string) :
  ~ In name (keys Tune.spec_grid_table) ->
  Tune.param_grid name = None /\
  (forall bank Xtr ytr s,
     exists e,
       App.tune bank name Xtr ytr s = (s, Py.Raised e) /\
       (e = Py.KeyError name \/ e = Py.NameError "param_grid")) /\
  (forall Xtr ytr s,
     App.tune Models.models name Xtr ytr s = (s, Py.Raised (Py.KeyError name))).
Proof.
  intros H. destruct (@TuneStepFacts.not_in_catalogue name H) as [Hgrid Hbank].
  split; [exact Hgrid|]. split.
  - intros bank Xtr ytr s. unfold App.tune.
    destruct (dict_get bank name) as [base|]; run.
    + rewrite Hgrid. run. eauto.
    + eauto.
  - intros Xtr ytr s. unfold App.tune. rewrite Hbank. now run.
Qed.

Lemma C6_witness :
  Tune.param_grid "XGBoost" = None /\
  (forall bank Xtr ytr (s : @Py.State Demo.sklearn),
     exists e,
       App.tune bank "XGBoost" Xtr ytr s = (s, Py.Raised e) /\
       (e = Py.KeyError "XGBoost" \/ e = Py.NameError "param_grid")) /\
  (forall Xtr ytr (s : @Py.State Demo.sklearn),
     App.tune Models.models "XGBoost" Xtr ytr s
     = (s, Py.Raised (Py.KeyError "XGBoost"))).
Proof.
  apply (@C6_unknown_model_fails_fast Demo.sklearn "XGBoost").
  simpl. intros [H|[H|[H|[H|[H|[]]]]]]; discriminate H.
Defined.



(** ** Failures *)

(** C7. When the download raises, the script ends there: for a
    [URLError] the message of line 27 is shown, [load_data] returns
    [None] and line 41 stops the run; any other exception is not caught
    and ends the run.  In both cases nothing else is shown or done: the
    scaler is not fitted, no file is written, no model is trained, tuned
    or asked for a prediction. *)
Theorem C7_download_failure_halts {SK : Sklearn} {ST : Streamlit}
    (env : App.Env) (s0 : Py.State) (e : Py.Exn) :
  App.read_csv env = App.CsvRaises e ->
  let shown :=
    match e with
    | Py.URLError reason =>
        [Py.StError (String.append "Failed to load data. Error: " reason)]
    | _ => []
    end in
  let outcome :=
    match e with
    | Py.URLError _ => Py.Stopped
    | _ => Py.Raised e
    end in
  exists s1,
    App.script env s0 = (s1, outcome) /\
    outcome <> Py.Ok tt /\
    Py.scaler s1 = Py.scaler s0 /\
    Py.files s1 = Py.files s0 /\
    Py.trace s1 = Py.trace s0 ++ shown.
Proof.
  intros Hread shown outcome.
  unfold App.script, App.pipeline, App.load_data. rewrite Hread.
  destruct e; run; eexists; (split; [reflexivity|]);
    (split; [discriminate|]); simpl; now rewrite ?app_nil_r.
Qed.

Lemma C7_witness :
  exists s1,
    App.script Demo.offline Demo.start = (s1, Py.Stopped) /\
    @Py.Stopped unit <> Py.Ok tt /\
    Py.scaler s1 = Py.scaler Demo.start /\
    Py.files s1 = Py.files Demo.start /\
    Py.trace s1
    = Py.trace Demo.start ++
      [Py.StError (String.append "Failed to load data. Error: " "timed out")].
Proof.
  exact (@C7_download_failure_halts Demo.sklearn Demo.streamlit
           Demo.offline Demo.start (Py.URLError "timed out") eq_refl).
Defined.





(* ================================================================== *)
(** * Further properties of the script *)

(** ** load_data beyond the five imputed columns *)

Module CleanFacts.
Import DataPrep.

Lemma not_mem_str (c : string) (cols : list string) :
  ~ In c cols -> mem_str c cols = false.
Proof.
  intros H. unfold mem_str.
  destruct (existsb (String.eqb c) cols) eqn:E; [|reflexivity].
  apply existsb_exists in E. destruct E as (k & Hk & Heq).
  apply String.eqb_eq in Heq. subst k. contradiction.
Qed.

Lemma clean_get_other (df : DataFrame) (c : string) (s : Series) :
  ~ In c cols_with_zeros ->
  dict_get df c = Some s ->
  dict_get (clean df) c = Some (fill_with (Some (median s)) s).
Proof.
  intros Hc Hs. unfold clean.
  rewrite DataPrepFacts.fillna_get, DataPrepFacts.df_median_get,
    DataPrepFacts.replace_in_get, Hs, (not_mem_str _ _ Hc).
  reflexivity.
Qed.

(** Column by column, cleaning keeps the name and the number of rows. *)
Lemma fillna_replace_columns (cols : list string) (values : dict Cell)
    (df : DataFrame) :
  Forall2 (fun kv kv' => fst kv = fst kv' /\
                         List.length (snd kv) = List.length (snd kv'))
          df (fillna (replace_in cols df) values).
Proof.
  unfold fillna, replace_in. rewrite map_map.
  induction df as [|[c s] df IH]; simpl; constructor; [|exact IH].
  destruct (mem_str c cols); simpl;
    destruct (dict_get values c) as [[m|]|];
    simpl; unfold replace_zero; rewrite ?length_map; now split.
Qed.

Lemma clean_columns (df : DataFrame) :
  Forall2 (fun kv kv' => fst kv = fst kv' /\
                         List.length (snd kv) = List.length (snd kv'))
          df (clean df).
Proof. unfold clean. apply fillna_replace_columns. Qed.





End CleanFacts.

(** X1. In a column that is not one of the five imputed columns,
    [load_data] keeps every number, a 0 included, and only fills a
    missing value, with the median of the numbers of that column. *)
Theorem X1_other_columns_keep_zeros {SK : Sklearn}
    (df : DataPrep.DataFrame) (st : Py.State)
    (c : string) (s : DataPrep.Series) (i : nat) (x : DataPrep.Cell) :
  ~ In c DataPrep.cols_with_zeros ->
  dict_get df c = Some s ->
  nth_error s i = Some x ->
  exists out s',
    App.load_data (App.CsvOk df) st = (st, Py.Ok (Some out)) /\
    dict_get out c = Some s' /\
    nth_error s' i
    = Some (match x with
            | Some v => Some v
            | None => DataPrep.median s
            end).
Proof.
  intros Hc Hs Hx.
  eexists. eexists. split; [reflexivity|].
  split; [apply (CleanFacts.clean_get_other _ Hc Hs)|].
  unfold DataPrep.fill_with.
  destruct (DataPrep.median s) as [m|].
  - rewrite nth_error_map, Hx. simpl. now destruct x.
  - rewrite Hx. now destruct x.
Qed.

Lemma X1_witness :
  exists out s',
    App.load_data (App.CsvOk Demo.table) Demo.start
    = (Demo.start, Py.Ok (Some out)) /\
    dict_get out "Pregnancies" = Some s' /\
    nth_error s' 4 = Some (Some 0).
Proof.
  apply (@X1_other_columns_keep_zeros Demo.sklearn Demo.table Demo.start
           "Pregnancies" (Demo.column_of [6; 1; 8; 1; 0]%Z) 4%nat (Some 0)).
  - simpl. intros [H|[H|[H|[H|[H|[]]]]]]; discriminate H.
  - reflexivity.
  - reflexivity.
Defined.

(** X2. The table that [load_data] returns has the columns of the table
    read, in the same order and under the same names, and each column
    has as many rows as before. *)
Theorem X2_load_data_keeps_shape {SK : Sklearn}
    (df : DataPrep.DataFrame) (st : Py.State) :
  exists out,
    App.load_data (App.CsvOk df) st = (st, Py.Ok (Some out)) /\
    Forall2 (fun kv kv' => fst kv = fst kv' /\
                           List.length (snd kv) = List.length (snd kv'))
            df out.
Proof.
  eexists. split; [reflexivity|]. apply CleanFacts.clean_columns.
Qed.



(** ** The training loop on any bank, the scores, the size of a search *)

Module LoopFacts.
Import DataPrep Metrics Models Select.

Lemma dict_set_new (V : Type) (d : dict V) (k : string) (v : V) :
  ~ In k (keys d) -> dict_set d k v = d ++ [(k, v)].
Proof.
  induction d as [|[k' v'] d IH]; simpl; [reflexivity|].
  intros H. destruct (String.eqb k' k) eqn:E.
  - apply String.eqb_eq in E. tauto.
  - f_equal. apply IH. tauto.
Qed.

Section WithSklearn.
Context {SK : Sklearn}.
Variables (Xtr : Matrix) (ytr : list Cell) (Xte : Matrix) (yte : list Cell).

Let entry (kv : string * Estimator) : string * Scores :=
  (fst kv, evaluate Xtr ytr Xte yte (snd kv)).

Lemma loop_from (ms : dict Estimator) (acc : dict Scores) :
  NoDup (keys acc ++ keys ms) ->
  fold_left (fun results '(name, model) =>
               dict_set results name (evaluate Xtr ytr Xte yte model))
            ms acc
  = acc ++ map entry ms.
Proof.
  revert acc. induction ms as [|[name model] ms IH]; intros acc Hnd; simpl.
  - now rewrite app_nil_r.
  - assert (Hnew : ~ In name (keys acc)).
    { intros Hin. apply NoDup_remove_2 in Hnd. apply Hnd.
      apply in_or_app. now left. }
    rewrite (@dict_set_new _ acc name _ Hnew), IH.
    + now rewrite <- app_assoc.
    + unfold keys in *. rewrite map_app. simpl. rewrite <- app_assoc. exact Hnd.
Qed.

End WithSklearn.

Lemma count_nonneg (A : Type) (p : A -> bool) (l : list A) : 0 <= count p l.
Proof.
  unfold count. change 0 with (inject_Z 0). rewrite <- Zle_Qle. lia.
Qed.

Lemma count_le_all (A : Type) (p : A -> bool) (l : list A) :
  count p l <= count (fun _ => true) l.
Proof.
  unfold count. rewrite <- Zle_Qle. apply inj_le.
  induction l as [|x l IH]; simpl; [lia|].
  destruct (p x); simpl; lia.
Qed.

(** A part of a whole, as a fraction; 0 when the whole is empty. *)
Lemma ratio_proportion (a b : Q) :
  0 <= a -> a <= b -> Obs.proportion (a / b).
Proof.
  intros Ha Hab. unfold Obs.proportion.
  destruct (Qeq_dec b 0) as [Hb|Hb].
  - assert (E : a / b == 0).
    { unfold Qdiv. rewrite Hb. unfold Qinv. simpl. ring. }
    rewrite E. split; [apply Qle_refl|discriminate].
  - assert (Hpos : 0 < b).
    { assert (H0 : 0 <= b) by (apply Qle_trans with a; assumption).
      apply Qle_lt_or_eq in H0. destruct H0 as [H|H]; [exact H|].
      exfalso. apply Hb. now symmetry. }
    split.
    + apply Qle_shift_div_l; [exact Hpos|]. lra.
    + apply Qle_shift_div_r; [exact Hpos|]. lra.
Qed.

Lemma grid_size_perm (g g' : Tune.Grid) :
  Permutation g g' -> Obs.grid_size g = Obs.grid_size g'.
Proof.
  unfold Obs.grid_size.
  induction 1 as [|kv g g' _ IH|kv kv' g|g g' g'' _ IH1 _ IH2]; simpl;
    [reflexivity|now rewrite IH|lia|congruence].
Qed.

Lemma length_product (g : Tune.Grid) :
  List.length (Tune.product g) = Obs.grid_size g.
Proof.
  unfold Obs.grid_size.
  induction g as [|[k vs] g IH]; simpl; [reflexivity|].
  rewrite <- IH. clear IH.
  induction vs as [|v vs IHv]; simpl; [reflexivity|].
  rewrite length_app, length_map. f_equal. exact IHv.
Qed.

End LoopFacts.

(** X4. On any bank whose model names are distinct, the loop of lines
    85-95 leaves one entry per model, in the order of the bank, holding
    the scores of that model. *)
Theorem X4_loop_one_entry_per_model {SK : Sklearn}
    (Xtr : Matrix) (ytr : list DataPrep.Cell)
    (Xte : Matrix) (yte : list DataPrep.Cell)
    (bank : dict Models.Estimator) :
  NoDup (keys bank) ->
  Select.train_and_evaluate Xtr ytr Xte yte bank
  = map (fun kv => (fst kv, Select.evaluate Xtr ytr Xte yte (snd kv))) bank.
Proof.
  intros Hnd. unfold Select.train_and_evaluate.
  now rewrite LoopFacts.loop_from.
Qed.

Lemma X4_witness :
  @Select.train_and_evaluate Demo.sklearn [] [] [] [] Models.models
  = map (fun kv =>
           (fst kv, @Select.evaluate Demo.sklearn [] [] [] [] (snd kv)))
        Models.models.
Proof.
  apply (@X4_loop_one_entry_per_model Demo.sklearn [] [] [] []
           Models.models).
  repeat constructor; simpl; intuition discriminate.
Defined.

(** X5. The four scores that the loop stores for a model are
    proportions: each lies between 0 and 1, also when a denominator is
    empty (no positive prediction, no positive label, no test row). *)
Theorem X5_scores_are_proportions {SK : Sklearn}
    (Xtr : Matrix) (ytr : list DataPrep.Cell)
    (Xte : Matrix) (yte : list DataPrep.Cell) (model : Models.Estimator) :
  let m := Select.evaluate Xtr ytr Xte yte model in
  Obs.proportion (Metrics.Accuracy m) /\
  Obs.proportion (Metrics.Precision m) /\
  Obs.proportion (Metrics.Recall m) /\
  Obs.proportion (Metrics.F1_Score m).
Proof.
  cbv zeta. unfold Select.evaluate. simpl.
  set (yp := predict (fit model Xtr ytr) Xte).
  unfold Metrics.accuracy_score, Metrics.precision_score,
    Metrics.recall_score, Metrics.f1_score.
  pose proof (LoopFacts.count_nonneg
                (fun '(t, p) => Metrics.is_pos t && Metrics.is_pos p)
                (combine yte yp)) as Htp.
  pose proof (LoopFacts.count_nonneg
                (fun '(t, p) => negb (Metrics.is_pos t) && Metrics.is_pos p)
                (combine yte yp)) as Hfp.
  pose proof (LoopFacts.count_nonneg
                (fun '(t, p) => Metrics.is_pos t && negb (Metrics.is_pos p))
                (combine yte yp)) as Hfn.
  fold (Metrics.tp yte yp) in *. fold (Metrics.fp yte yp) in *.
  fold (Metrics.fn yte yp) in *.
  split; [apply LoopFacts.ratio_proportion;
          [apply LoopFacts.count_nonneg|apply LoopFacts.count_le_all]|].
  repeat split; apply LoopFacts.ratio_proportion; lra.
Qed.

(** X6. The search visits as many candidates as the product of the
    numbers of values listed for the parameters of the grid. *)
Theorem X6_candidates_count (g : Tune.Grid) :
  List.length (Tune.candidates g) = Obs.grid_size g.
Proof.
  unfold Tune.candidates. rewrite LoopFacts.length_product.
  apply LoopFacts.grid_size_perm, TuneFacts.sorted_items_perm.
Qed.

(** ** What lines 39-139 do to the files and the page, however they end *)

Module EffectFacts.
Import DataPrep Models Py App.

Section WithLibraries.
Context {SK : Sklearn} {ST : Streamlit}.




End WithLibraries.

End EffectFacts.






(** ** Runs on small tables, and a whole run with a prediction *)

Module RunFacts.
Import DataPrep Models Py App.

(** The features and the labels of a cleaned table of nine columns. *)
Lemma prepared_table (df : DataFrame) (n : nat) :
  keys df = col_names ->
  Frame.rectangular n df ->
  exists X0 y0,
    Frame.drop_column (clean df) "Outcome" = Some X0 /\
    dict_get (clean df) "Outcome" = Some y0 /\
    List.length X0 = 8%nat /\
    List.length (Frame.to_rows X0) = n /\
    List.length y0 = n.
Proof.
  intros Hkeys Hrect.
  apply ShapeFacts.rectangular_clean in Hrect.
  rewrite <- ShapeFacts.keys_clean in Hkeys.
  destruct (ShapeFacts.nine_columns _ Hkeys)
    as (s1 & s2 & s3 & s4 & s5 & s6 & s7 & s8 & s9 & Hclean).
  rewrite Hclean in *. unfold Frame.rectangular in Hrect.
  assert (Hlen1 : List.length s1 = n) by (inversion Hrect; assumption).
  assert (Hlen9 : List.length s9 = n).
  { rewrite Forall_forall in Hrect. apply (Hrect ("Outcome", s9)).
    simpl. intuition. }
  eexists. eexists. split; [reflexivity|]. split; [reflexivity|].
  split; [reflexivity|]. split; [|exact Hlen9].
  unfold Frame.to_rows. now rewrite length_map, length_seq.
Qed.

Section WithLibraries.
Context {SK : Sklearn} {ST : Streamlit}.



End WithLibraries.

End RunFacts.

(** X9. A download of the nine columns with fewer than two rows makes
    lines 39-139 raise a [ValueError] before any model is trained: with
    no row at the scaling, with one row at the split, after the scaler
    has been fitted; no file is written. *)
Theorem X9_fewer_than_two_rows_raises {SK : Sklearn} {ST : Streamlit}
    (env : App.Env) (s0 : Py.State) (df : DataPrep.DataFrame) (n : nat) :
  App.read_csv env = App.CsvOk df ->
  keys df = DataPrep.col_names ->
  Frame.rectangular n df ->
  (n < 2)%nat ->
  exists s1 msg evs,
    App.pipeline env s0 = (s1, Py.Raised (Py.ValueError msg)) /\
    Py.files s1 = Py.files s0 /\
    Py.trace s1 = Py.trace s0 ++ evs /\
    existsb (fun ev => match ev with
                       | Py.Trained _ | Py.Tuned _ | Py.Dumped _ => true
                       | _ => false
                       end) evs = false /\
    match n with
    | O => Py.scaler s1 = Py.scaler s0
    | _ => exists sc, Py.scaler s1 = Some sc
    end.
Proof.
  intros Hread Hkeys Hrect Hn.
  destruct (RunFacts.prepared_table Hkeys Hrect)
    as (X0 & y0 & HX & Hy & Hcols & Hrows & Hlen).
  unfold App.pipeline, App.load_data. rewrite Hread. run.
  rewrite HX. run. rewrite Hy. run.
  rewrite AppFacts.bind_fit_transform.
  destruct (Frame.to_rows X0) as [|r rows] eqn:Erows.
  - simpl in Hrows. subst n.
    eexists. eexists. eexists. split; [reflexivity|].
    split; [reflexivity|].
    split; [simpl; rewrite <- ?app_assoc; reflexivity|].
    split; [|reflexivity].
    destruct (checkbox (App.ui env) "Show Dataset"),
      (checkbox (App.ui env) "Show Summary Statistics"),
      (checkbox (App.ui env) "Show Correlation Heatmap"); reflexivity.
  - destruct rows as [|r' rows]; [|simpl in Hrows; lia].
    simpl in Hrows. subst n.
    destruct (ShapeFacts.transform_fit np_sqrt (X := [r]))
      as (Xs & HXs & HlenXs).
    { pose proof (PipelineFacts.to_rows_widths X0) as Hw. rewrite Erows in Hw.
      assert (Hr : List.length r = List.length X0)
        by (inversion Hw; assumption).
      eapply Forall_impl; [|exact Hw].
      intros a Ha. unfold Scaler.n_features. now rewrite Ha, Hr. }
    rewrite HXs. run.
    assert (Hsplit : Split.train_test_split rng_permutation [] None Xs y0
                       App.random_state = None).
    { unfold Split.train_test_split. cbv zeta. unfold DataPrep.Cell in *.
      rewrite HlenXs, Hlen. reflexivity. }
    rewrite Hsplit. run.
    eexists. eexists. eexists. split; [reflexivity|].
    split; [reflexivity|].
    split; [simpl; rewrite <- ?app_assoc; reflexivity|].
    split; [|simpl; eauto].
    destruct (checkbox (App.ui env) "Show Dataset"),
      (checkbox (App.ui env) "Show Summary Statistics"),
      (checkbox (App.ui env) "Show Correlation Heatmap"); reflexivity.
Qed.

Lemma Obs_one_row_rectangular : Frame.rectangular 1 Obs.one_row.
Proof. repeat constructor. Defined.

Lemma X9_witness :
  exists s1 msg evs,
    @App.pipeline Demo.sklearn Demo.streamlit Obs.one_row_env Demo.start
    = (s1, Py.Raised (Py.ValueError msg)) /\
    Py.files s1 = Py.files Demo.start /\
    Py.trace s1 = Py.trace Demo.start ++ evs /\
    existsb (fun ev => match ev with
                       | Py.Trained _ | Py.Tuned _ | Py.Dumped _ => true
                       | _ => false
                       end) evs = false /\
    exists sc, Py.scaler s1 = Some sc.
Proof.
  apply (@X9_fewer_than_two_rows_raises Demo.sklearn Demo.streamlit
           Obs.one_row_env Demo.start Obs.one_row 1).
  - reflexivity.
  - reflexivity.
  - exact Obs_one_row_rectangular.
  - lia.
Defined.



(** ** Standardisation, parameters and the sizes of the split *)

Module ScaleFacts.
Import DataPrep Scaler.









Section Column.
Variable sqrt : Q -> Q.


End Column.

End ScaleFacts.



Module ParamFacts.
Import Models.

Lemma set_params_cons (e : Estimator) (k : string) (v : Param)
    (c : dict Param) :
  set_params e ((k, v) :: c)
  = set_params (mkEstimator (cls e) (dict_set (params e) k v)) c.
Proof. reflexivity. Qed.

Lemma cls_set_params (e : Estimator) (c : dict Param) :
  cls (set_params e c) = cls e.
Proof.
  revert e. induction c as [|[k v] c IH]; intros e; [reflexivity|].
  rewrite set_params_cons, IH. reflexivity.
Qed.

Lemma get_set_params_other (e : Estimator) (c : dict Param) (k : string) :
  ~ In k (keys c) ->
  dict_get (params (set_params e c)) k = dict_get (params e) k.
Proof.
  revert e. induction c as [|[k' v] c IH]; intros e Hk; [reflexivity|].
  rewrite set_params_cons, IH by (simpl in Hk; tauto). simpl.
  apply dict_get_set_other. simpl in Hk. intros ->. tauto.
Qed.

Lemma get_set_params_in (e : Estimator) (c : dict Param) (k : string)
    (v : Param) :
  NoDup (keys c) -> In (k, v) c ->
  dict_get (params (set_params e c)) k = Some v.
Proof.
  revert e. induction c as [|[k' v'] c IH]; intros e Hnd Hin; [contradiction|].
  rewrite set_params_cons. simpl in Hnd. inversion Hnd as [|? ? Hk' Hnd']; subst.
  destruct Hin as [[= -> ->]|Hin].
  - rewrite get_set_params_other by exact Hk'. simpl.
    apply dict_get_set_same.
  - now apply IH.
Qed.

End ParamFacts.

(** X12. Setting the parameters of a candidate on an estimator keeps
    its class and every constructor argument that the candidate does not
    name, and gives each named parameter the candidate's value: the
    tuned SVM still has [probability=True], the tuned AdaBoost still
    has its stump. *)
Theorem X12_set_params_keeps_other_arguments
    (e : Models.Estimator) (c : dict Models.Param) :
  NoDup (keys c) ->
  Models.cls (Models.set_params e c) = Models.cls e /\
  (forall k, ~ In k (keys c) ->
     dict_get (Models.params (Models.set_params e c)) k
     = dict_get (Models.params e) k) /\
  (forall k v, In (k, v) c ->
     dict_get (Models.params (Models.set_params e c)) k = Some v).
Proof.
  intros Hnd. split; [apply ParamFacts.cls_set_params|]. split.
  - intros k Hk. now apply ParamFacts.get_set_params_other.
  - intros k v Hin. now apply ParamFacts.get_set_params_in.
Qed.

Lemma X12_witness :
  let e := Models.mkEstimator "SVC"
             [("kernel", Models.PStr "linear");
              ("probability", Models.PBool true)] in
  let c := [("C", Models.PInt 10); ("kernel", Models.PStr "rbf")] in
  Models.cls (Models.set_params e c) = Models.cls e /\
  (forall k, ~ In k (keys c) ->
     dict_get (Models.params (Models.set_params e c)) k
     = dict_get (Models.params e) k) /\
  (forall k v, In (k, v) c ->
     dict_get (Models.params (Models.set_params e c)) k = Some v).
Proof.
  apply (@X12_set_params_keeps_other_arguments
           (Models.mkEstimator "SVC"
              [("kernel", Models.PStr "linear");
               ("probability", Models.PBool true)])
           [("C", Models.PInt 10); ("kernel", Models.PStr "rbf")]).
  repeat constructor; simpl; intuition discriminate.
Defined.

(** X13. The split of line 71 raises exactly when the features and the
    labels differ in length or there are fewer than two rows; otherwise
    it returns a Train part of [n - ceil(n / 5)] rows and a Test part of
    [ceil(n / 5)] rows, both with at least one row, features and labels
    of the same length in each part. *)
Theorem X13_split_succeeds_from_two_rows
    (permutation : Z -> nat -> list nat)
    (A B : Type) (dA : A) (dB : B) (X : list A) (y : list B) (seed : Z) :
  (forall s n, Permutation (permutation s n) (seq 0 n)) ->
  let n := List.length X in
  (Split.train_test_split permutation dA dB X y seed = None <->
   List.length y <> n \/ (n < 2)%nat) /\
  (forall sp,
     Split.train_test_split permutation dA dB X y seed = Some sp ->
     List.length (Split.X_test sp) = Split.n_test n /\
     List.length (Split.X_train sp) = (n - Split.n_test n)%nat /\
     List.length (Split.y_test sp) = List.length (Split.X_test sp) /\
     List.length (Split.y_train sp) = List.length (Split.X_train sp) /\
     (1 <= List.length (Split.X_test sp))%nat /\
     (1 <= List.length (Split.X_train sp))%nat).
Proof.
  intros Hperm n.
  assert (Htest : (n <= 5 * Split.n_test n < n + 5)%nat)
    by apply SplitFacts.n_test_ceil.
  split.
  - unfold Split.train_test_split. fold n. cbv zeta.
    destruct (Nat.eqb (List.length y) n) eqn:Ey; simpl.
    + apply Nat.eqb_eq in Ey.
      destruct (Nat.eqb (Split.n_train n) 0) eqn:Et.
      * apply Nat.eqb_eq in Et. unfold Split.n_train in Et.
        split; [intros _; right; lia|reflexivity].
      * apply Nat.eqb_neq in Et. unfold Split.n_train in Et.
        split; [discriminate|]. intros [H|H]; [congruence|lia].
    + apply Nat.eqb_neq in Ey. split; [now left|reflexivity].
  - intros sp Hsp.
    assert (Hn : (2 <= n)%nat).
    { unfold Split.train_test_split in Hsp. fold n in Hsp. cbv zeta in Hsp.
      destruct (negb _); [discriminate|].
      destruct (Nat.eqb (Split.n_train n) 0) eqn:Et; [discriminate|].
      apply Nat.eqb_neq in Et. unfold Split.n_train in Et. lia. }
    destruct (SplitFacts.train_test_split_some _ _ _ _ _ _ Hsp)
      as (H1 & H2 & H3 & H4). fold n in H1, H2, H3, H4.
    rewrite H1, H2, H3, H4. unfold Split.take_rows.
    rewrite !length_map.
    rewrite (SplitFacts.length_test_indices _ Hperm),
      (SplitFacts.length_train_indices _ Hperm).
    unfold Split.n_train. repeat split; lia.
Qed.

Lemma X13_witness :
  let n := List.length [10; 20; 30]%Z in
  (Split.train_test_split (fun _ k => seq 0 k) 0%Z false
     [10; 20; 30]%Z [true; false; true] 42 = None <->
   List.length [true; false; true] <> n \/ (n < 2)%nat) /\
  (forall sp,
     Split.train_test_split (fun _ k => seq 0 k) 0%Z false
       [10; 20; 30]%Z [true; false; true] 42 = Some sp ->
     List.length (Split.X_test sp) = Split.n_test n /\
     List.length (Split.X_train sp) = (n - Split.n_test n)%nat /\
     List.length (Split.y_test sp) = List.length (Split.X_test sp) /\
     List.length (Split.y_train sp) = List.length (Split.X_train sp) /\
     (1 <= List.length (Split.X_test sp))%nat /\
     (1 <= List.length (Split.X_train sp))%nat).
Proof.
  apply (@X13_split_succeeds_from_two_rows (fun _ k => seq 0 k)
           Z bool 0%Z false [10; 20; 30]%Z [true; false; true] 42).
  intros s k. apply Permutation_refl.
Defined.



(** X15. Among the candidates of equal best mean score the search
    returns the first one in the order of the candidates: every
    candidate before the returned one has a strictly smaller mean
    score. *)
Theorem X15_search_returns_first_best_candidate {SK : Sklearn}
    (base : Models.Estimator) (grid : Tune.Grid) (cv : nat)
    (scoring : string) (X : Matrix) (y : list DataPrep.Cell)
    (r : Tune.SearchResult) :
  Tune.grid_search_fit base grid cv scoring X y = Some r ->
  exists pre post,
    Tune.candidates grid = pre ++ Tune.best_params_ r :: post /\
    (forall c, In c pre ->
       Tune.mean_test_score scoring cv base X y c < Tune.best_score_ r) /\
    (forall c, In c post ->
       Tune.mean_test_score scoring cv base X y c <= Tune.best_score_ r).
Proof.
  unfold Tune.grid_search_fit.
  destruct (Select.py_max _ (Tune.candidates grid)) as [c|] eqn:Hc;
    [|discriminate].
  intros [= <-]. simpl.
  assert (Hne : Tune.candidates grid <> []).
  { intros E. rewrite E in Hc. discriminate. }
  destruct (SelectFacts.py_max_split
              (Tune.mean_test_score scoring cv base X y) Hne)
    as (c' & pre & post & Hc' & Hsplit & Hpre & Hpost).
  rewrite Hc in Hc'. injection Hc' as <-.
  exists pre, post. now repeat split.
Qed.

Lemma X15_witness :
  exists pre post,
    Tune.candidates [("C", [Models.PFloat (1 # 10); Models.PInt 1])]
    = pre ++ [("C", Models.PFloat (1 # 10))] :: post /\
    (forall c, In c pre ->
       @Tune.mean_test_score Demo.sklearn "f1" 5
         (Models.mkEstimator "LogisticRegression" []) [] [] c < 0 / 5) /\
    (forall c, In c post ->
       @Tune.mean_test_score Demo.sklearn "f1" 5
         (Models.mkEstimator "LogisticRegression" []) [] [] c <= 0 / 5).
Proof.
  apply (@X15_search_returns_first_best_candidate Demo.sklearn
           (Models.mkEstimator "LogisticRegression" [])
           [("C", [Models.PFloat (1 # 10); Models.PInt 1])] 5 "f1" [] []
           (@Tune.mkSearch Demo.sklearn [("C", Models.PFloat (1 # 10))]
              (Models.mkEstimator "LogisticRegression"
                 [("C", Models.PFloat (1 # 10))])
              (0 / 5))).
  reflexivity.
Defined.
